(** * Room.tsx: the watch-together room component, embedded and verified

    The component of [src/components/Room.tsx] keeps a React state object,
    a socket.io channel and a reference to a ReactPlayer.  Its methods are
    embedded below as computations over an explicit component record:
    every method may read and merge the state, call the socket, the player
    or the console (recorded as a trace of effects), and may complete
    abruptly with a JavaScript exception.

    Numbers are IEEE 754 binary64 values ([PrimFloat.float]), which is what
    a JavaScript number is.  Objects used as records of fields (the React
    state, the deltas sent and received) are finite maps from property
    names to values.

    The component runs on one event loop: a handler runs to its end before
    the next event is looked at, so a session is a sequence of calls, each
    starting from the component the previous one left.  [setState] is
    taken to apply its merge at once; no method of the component reads the
    state after writing it within one call.  What React does around a
    call (rendering the new state, ignoring [setState] on a component
    that is not mounted) is outside the embedding. *)

From Stdlib Require Import Floats ZArith.
From stdpp Require Import gmap strings list.

Set Warnings "-inexact-float,-register-all".

(** ** JavaScript values *)

Inductive value : Type :=
  | VUndefined
  | VNull
  | VBool (b : bool)
  | VNumber (x : float)
  | VString (s : string)
  | VObject (fields : list (string * value))
  | VArray (items : list value).

(** An object whose properties are read and merged by name. *)
Abbreviation object := (gmap string value).

(** [o.k]: reading a property that is absent gives [undefined]. *)
Definition prop (o : object) (k : string) : value :=
  default VUndefined (o !! k).

(** What the component takes from its platform: the build environment, the
    player library's capability check and the number parsers of the
    language.  Their insides are not part of [Room.tsx]. *)
Class Host := {
  REACT_APP_DOCKER : option string;      (* process.env.REACT_APP_DOCKER *)
  canPlay : string → bool;               (* ReactPlayer.canPlay *)
  parseFloat : string → float;           (* the global parseFloat *)
  StringToNumber : string → float;       (* ToNumber on a string *)
  ObjectToNumber : value → float;        (* ToNumber on an object or array *)
}.

(** Truthiness, as tested by [if (v)] and [!v]. *)
Definition ToBoolean (v : value) : bool :=
  match v with
  | VUndefined | VNull => false
  | VBool b => b
  | VNumber x => negb (x =? 0)%float && negb (is_nan x)
  | VString s => negb (String.eqb s "")
  | VObject _ | VArray _ => true
  end.

(** The numeric coercion applied to the operands of [-] and [*]. *)
Definition ToNumber `{Host} (v : value) : float :=
  match v with
  | VUndefined => nan
  | VNull => 0%float
  | VBool b => if b then 1%float else 0%float
  | VNumber x => x
  | VString s => StringToNumber s
  | VObject _ | VArray _ => ObjectToNumber v
  end.

(** ** The component and its effects *)

(** The socket.io client socket, as far as the component looks at it: the
    [connected] flag, false until the transport has connected and again
    after [disconnect()], and the events a listener is registered for. *)
Record Socket := { connected : bool; listeners : list string }.

Record Room := {
  props_roomId : string;       (* this.props.roomId *)
  state : object;              (* this.state *)
  player_current : bool;       (* this.player.current is not null *)
  socket : option Socket;      (* this.socket, undefined until mounted *)
}.

Definition with_state (st : object) (r : Room) : Room :=
  {| props_roomId := props_roomId r; state := st;
     player_current := player_current r; socket := socket r |}.

Definition with_socket (sk : option Socket) (r : Room) : Room :=
  {| props_roomId := props_roomId r; state := state r;
     player_current := player_current r; socket := sk |}.

Inductive effect : Type :=
  | SocketOpen (endpoint roomId : string)          (* socketIOClient(ENDPOINT, {query}) *)
  | SocketEmit (event : string) (payload : object) (* socket.emit(event, payload) *)
  | SocketOn (event : string)                      (* socket.on(event, handler) *)
  | SocketDisconnect                               (* socket.disconnect() *)
  | PlayerSeekTo (amount : value) (type : option string) (* player.seekTo(amount, type) *)
  | ConsoleDebug (label : string) (data : object)
  | ConsoleLog (args : list value).

Inductive exn : Type :=
  | TypeError (msg : string).

Inductive completion (A : Type) : Type :=
  | Normal (a : A)
  | Throw (e : exn).
Arguments Normal {A} a.
Arguments Throw {A} e.

(** A method body: from the component before the call to how the call
    completed, the component after it and the effects it performed, in
    order.  An exception keeps what was done before it. *)
Definition M (A : Type) : Type := Room → completion A * Room * list effect.

#[export] Instance M_ret : MRet M := λ A a r, (Normal a, r, []).

#[export] Instance M_bind : MBind M := λ A B k m r,
  match m r with
  | (Normal a, r1, t1) =>
      match k a r1 with
      | (c, r2, t2) => (c, r2, t1 ++ t2)
      end
  | (Throw e, r1, t1) => (Throw e, r1, t1)
  end.

Definition this : M Room := λ r, (Normal r, r, []).
Definition put (r' : Room) : M unit := λ _, (Normal (), r', []).
Definition perform (e : effect) : M unit := λ r, (Normal (), r, [e]).
Definition throw {A} (e : exn) : M A := λ r, (Throw e, r, []).

(** Projections of a finished call. *)
Definition outcome {A} (x : completion A * Room * list effect) : completion A := x.1.1.
Definition room_after {A} (x : completion A * Room * list effect) : Room := x.1.2.
Definition trace {A} (x : completion A * Room * list effect) : list effect := x.2.

(** [this.setState(data)]: the properties of [data] overwrite those of the
    state, the others stay.  The merge is applied at once. *)
Definition merge (data st : object) : object := data ∪ st.

Definition setState (data : object) : M unit :=
  r ← this; put (with_state (merge data (state r)) r).

(** [this.socket!]: the socket, or the TypeError of reading a property of
    [undefined]. *)
Definition socket_nonnull : M Socket :=
  r ← this;
  match socket r with
  | Some sk => mret sk
  | None => throw (TypeError "Cannot read properties of undefined")
  end.

Definition socket_emit (event : string) (payload : object) : M unit :=
  perform (SocketEmit event payload).

Definition socket_on (event : string) : M unit :=
  sk ← socket_nonnull;
  r ← this;
  put (with_socket (Some {| connected := connected sk;
                            listeners := event :: listeners sk |}) r);;
  perform (SocketOn event).

Definition socket_disconnect : M unit :=
  sk ← socket_nonnull;
  r ← this;
  put (with_socket (Some {| connected := false; listeners := listeners sk |}) r);;
  perform SocketDisconnect.

(** [this.player.current?.seekTo(amount, type)] *)
Definition player_seekTo (amount : value) (type : option string) : M unit :=
  r ← this;
  if player_current r then perform (PlayerSeekTo amount type) else mret ().

Definition console_debug (label : string) (data : object) : M unit :=
  perform (ConsoleDebug label data).

Definition console_log (args : list value) : M unit :=
  perform (ConsoleLog args).

(** ** The methods of [Room] *)

Section Component.
Context `{host : Host}.

Definition ENDPOINT : string :=
  match REACT_APP_DOCKER with
  | Some s => if String.eqb s "" then "http://localhost:8081" else ""
  | None => "http://localhost:8081"
  end.

(** The state built by the constructor; the player reference is empty and
    there is no socket yet. *)
Definition constructor (roomId : string) : Room :=
  {| props_roomId := roomId;
     state :=
       <["id" := VString roomId]>
       (<["owner" := VObject [("name", VString "loading...")]]>
       (<["users" := VArray []]>
        {[ "url" := VString "https://youtu.be/Bi11Iid2hmo";
           "playing" := VBool true;
           "volume" := VNumber 0.3;
           "muted" := VBool true;
           "played" := VNumber 0;
           "loaded" := VNumber 0;
           "duration" := VNumber 0;
           "playbackRate" := VNumber 1;
           "loop" := VBool false;
           "ready" := VBool false;
           "buffering" := VBool false;
           "seeking" := VBool false ]}));
     player_current := false;
     socket := None |}.

(** The object literal of lines 74 to 87, read from the state [st]. *)
Definition initial_update (st : object) : object :=
  {[ "url" := prop st "url";
     "playing" := prop st "playing";
     "volume" := prop st "volume";
     "muted" := prop st "muted";
     "played" := prop st "played";
     "loaded" := prop st "loaded";
     "duration" := prop st "duration";
     "playbackRate" := prop st "playbackRate";
     "loop" := prop st "loop";
     "ready" := prop st "ready";
     "buffering" := prop st "buffering";
     "seeking" := prop st "seeking" ]}.

(** The two nested conditions of lines 92 and 93: the delta carries a
    truthy [played], and the drift in seconds exceeds two. *)
Definition drift_exceeds (localPlayed remotePlayed duration : float) : bool :=
  (2 <? abs (localPlayed - remotePlayed) * duration)%float.

Definition reconciliation_gate (st data : object) : bool :=
  if ToBoolean (prop data "played") then
    drift_exceeds (ToNumber (prop st "played")) (ToNumber (prop data "played"))
                  (ToNumber (prop st "duration"))
  else false.

(** The listener registered for ["status"] (lines 89 to 98). *)
Definition on_status (data : object) : M unit :=
  console_debug "Update from server:" data;;
  r ← this;
  (if ToBoolean (prop data "played") then
     if drift_exceeds (ToNumber (prop (state r) "played"))
                      (ToNumber (prop data "played"))
                      (ToNumber (prop (state r) "duration"))
     then player_seekTo (prop data "played") (Some "fraction")
     else mret ()
   else mret ());;
  setState data.

Definition componentDidMount : M unit :=
  r ← this;
  put (with_socket (Some {| connected := false; listeners := [] |}) r);;
  perform (SocketOpen ENDPOINT (props_roomId r));;
  socket_emit "update" (initial_update (state r));;
  socket_on "status".

(** The socket hands an inbound event to the listener registered for it,
    while it is connected; ["status"] is the only event the component
    listens to. *)
Definition deliver (event : string) (data : object) : M unit :=
  r ← this;
  match socket r with
  | Some sk =>
      if connected sk && bool_decide (event ∈ listeners sk) && String.eqb event "status"
      then on_status data
      else mret ()
  | None => mret ()
  end.

Definition componentWillUnmount : M unit :=
  sk ← socket_nonnull;
  if connected sk then socket_disconnect else mret ().

Definition updateState (data : object) : M unit :=
  r ← this;
  (if socket r is Some _ then
     console_debug "Updating to remote:" data;;
     socket_emit "update" data
   else mret ());;
  setState data.

Definition load (url : string) : M unit :=
  updateState {[ "url" := VString url;
                 "ready" := VBool false;
                 "played" := VNumber 0;
                 "loaded" := VNumber 0;
                 "playing" := VBool true ]}.

Definition changeToURL (url : string) : M unit :=
  if canPlay url then load url
  else console_log [VString "Error, cannot play url:"; VString url].

(** The three handlers of the scrub slider; the argument is
    [e.target.value]. *)
Definition handleSeekMouseDown : M unit :=
  updateState {[ "seeking" := VBool true ]}.

Definition handleSeekChange (value : string) : M unit :=
  updateState {[ "played" := VNumber (parseFloat value) ]}.

Definition handleSeekMouseUp (value : string) : M unit :=
  updateState {[ "seeking" := VBool false ]};;
  player_seekTo (VNumber (parseFloat value)) None.

(** The player callbacks and the button handlers passed in [render]. *)
Definition onReady : M unit := updateState {[ "ready" := VBool true ]}.
Definition onPlay : M unit := updateState {[ "playing" := VBool true ]}.
Definition onPause : M unit := updateState {[ "playing" := VBool false ]}.
Definition onBuffer : M unit := updateState {[ "buffering" := VBool true ]}.
Definition onBufferEnd : M unit := updateState {[ "buffering" := VBool false ]}.

Definition onEnded : M unit :=
  r ← this;
  if ToBoolean (prop (state r) "loop") then
    updateState {[ "playing" := VBool true; "played" := VNumber 0 ]}
  else
    updateState {[ "playing" := VBool false ]}.

Definition onProgress (progress : object) : M unit :=
  r ← this;
  if negb (ToBoolean (prop (state r) "seeking")) then updateState progress
  else mret ().

Definition onDuration (duration : float) : M unit :=
  updateState {[ "duration" := VNumber duration ]}.

Definition onClick_playing : M unit :=
  r ← this;
  updateState {[ "playing" := VBool (negb (ToBoolean (prop (state r) "playing"))) ]}.

Definition onClick_muted : M unit :=
  r ← this;
  updateState {[ "muted" := VBool (negb (ToBoolean (prop (state r) "muted"))) ]}.

Definition onClick_loop : M unit :=
  r ← this;
  updateState {[ "loop" := VBool (negb (ToBoolean (prop (state r) "loop"))) ]}.

(** A whole scrub gesture: mouse down, one change per slider position
    passed, mouse up. *)
Fixpoint handleSeekChanges (values : list string) : M unit :=
  match values with
  | [] => mret ()
  | v :: vs => handleSeekChange v;; handleSeekChanges vs
  end.

Definition seek_gesture (values : list string) (final : string) : M unit :=
  handleSeekMouseDown;; handleSeekChanges values;; handleSeekMouseUp final.

(** The delta [handleSeekChange] builds from a slider value. *)
Definition played_delta (value : string) : object :=
  {[ "played" := VNumber (parseFloat value) ]}.

End Component.

(** ** Calls into the component *)

(** The callbacks of [render] that only write to the console. *)
Definition onStart : M unit := console_log [VString "onStart"].
Definition onSeek (e : value) : M unit := console_log [VString "onSeek"; e].
Definition onError (e : value) : M unit := console_log [VString "onError"; e].

(** One call of a method or callback of the component: the ["status"]
    listener, [componentWillUnmount], the public methods, the callbacks
    [render] passes to the player and the three buttons. *)
Inductive call : Type :=
  | CallStatus (data : object)
  | CallWillUnmount
  | CallChangeToURL (url : string)
  | CallLoad (url : string)
  | CallSeekMouseDown
  | CallSeekChange (value : string)
  | CallSeekMouseUp (value : string)
  | CallReady
  | CallStart
  | CallPlay
  | CallPause
  | CallBuffer
  | CallBufferEnd
  | CallSeek (e : value)
  | CallEnded
  | CallError (e : value)
  | CallProgress (progress : object)
  | CallDuration (duration : float)
  | CallClickPlaying
  | CallClickMuted
  | CallClickLoop.

Definition handle `{Host} (c : call) : M unit :=
  match c with
  | CallStatus data => on_status data
  | CallWillUnmount => componentWillUnmount
  | CallChangeToURL url => changeToURL url
  | CallLoad url => load url
  | CallSeekMouseDown => handleSeekMouseDown
  | CallSeekChange v => handleSeekChange v
  | CallSeekMouseUp v => handleSeekMouseUp v
  | CallReady => onReady
  | CallStart => onStart
  | CallPlay => onPlay
  | CallPause => onPause
  | CallBuffer => onBuffer
  | CallBufferEnd => onBufferEnd
  | CallSeek e => onSeek e
  | CallEnded => onEnded
  | CallError e => onError e
  | CallProgress progress => onProgress progress
  | CallDuration duration => onDuration duration
  | CallClickPlaying => onClick_playing
  | CallClickMuted => onClick_muted
  | CallClickLoop => onClick_loop
  end.

(** A session is a sequence of calls.  Each call is a task of its own on
    the event loop: it starts from the component the previous call left,
    and an exception ends that call only. *)
Fixpoint run `{Host} (calls : list call) (r : Room)
    : list (completion unit) * Room * list effect :=
  match calls with
  | [] => ([], r, [])
  | c :: cs =>
      let first := handle c r in
      let rest := run cs (room_after first) in
      (outcome first :: rest.1.1, rest.1.2, trace first ++ rest.2)
  end.

(** The calls whose body goes through [updateState]. *)
Definition goes_through_updateState (c : call) : bool :=
  match c with
  | CallStatus _ | CallWillUnmount | CallStart | CallSeek _ | CallError _ => false
  | _ => true
  end.

(** The calls whose body calls [seekTo]. *)
Definition calls_seekTo (c : call) : bool :=
  match c with
  | CallStatus _ | CallSeekMouseUp _ => true
  | _ => false
  end.

(** What a session returned, what it left and what it did. *)
Definition session_outcomes (x : list (completion unit) * Room * list effect)
  : list (completion unit) := x.1.1.
Definition session_room (x : list (completion unit) * Room * list effect)
  : Room := x.1.2.
Definition session_trace (x : list (completion unit) * Room * list effect)
  : list effect := x.2.

(** The properties of the state a call can write: the keys of the object
    it passes to [setState], directly or through [updateState]. *)
Definition writes (c : call) : gset string :=
  match c with
  | CallStatus data => dom data
  | CallProgress progress => dom progress
  | CallChangeToURL _ | CallLoad _ =>
      {[ "url"; "ready"; "played"; "loaded"; "playing" ]}
  | CallSeekMouseDown | CallSeekMouseUp _ => {[ "seeking" ]}
  | CallSeekChange _ => {[ "played" ]}
  | CallReady => {[ "ready" ]}
  | CallPlay | CallPause | CallClickPlaying => {[ "playing" ]}
  | CallBuffer | CallBufferEnd => {[ "buffering" ]}
  | CallEnded => {[ "playing"; "played" ]}
  | CallDuration _ => {[ "duration" ]}
  | CallClickMuted => {[ "muted" ]}
  | CallClickLoop => {[ "loop" ]}
  | CallWillUnmount | CallStart | CallSeek _ | CallError _ => ∅
  end.

(** ** The environment of a session *)

(** React attaches the player reference when the player is rendered, which
    is before [componentDidMount] runs. *)
Definition attach_player (r : Room) : Room :=
  {| props_roomId := props_roomId r; state := state r;
     player_current := true; socket := socket r |}.

(** The transport reports that the connection is established. *)
Definition transport_connect : M unit :=
  r ← this;
  match socket r with
  | Some sk =>
      put (with_socket (Some {| connected := true; listeners := listeners sk |}) r)
  | None => mret ()
  end.

(** ** Observations on a trace *)

(** The payloads published as ["update"], in order. *)
Definition updates (t : list effect) : list object :=
  omap (λ e, match e with
             | SocketEmit ev d => if String.eqb ev "update" then Some d else None
             | _ => None
             end) t.

Definition is_emit (e : effect) : bool :=
  match e with SocketEmit _ _ => true | _ => false end.

Definition is_seek (e : effect) : bool :=
  match e with PlayerSeekTo _ _ => true | _ => false end.

Definition is_disconnect (e : effect) : bool :=
  match e with SocketDisconnect => true | _ => false end.

Definition count (p : effect → bool) (t : list effect) : nat :=
  length (List.filter p t).

Definition raises {A} (x : completion A * Room * list effect) : Prop :=
  ∃ e, outcome x = Throw e.

(** [m] is a toggle of the property [k]: one call negates its truthiness
    and touches nothing else; two calls in a row bring the truthiness
    back and publish the two opposite values. *)
Definition toggles (k : string) (m : M unit) : Prop :=
  ∀ r : Room,
    let b := ToBoolean (prop (state r) k) in
    prop (state (room_after (m r))) k = VBool (negb b) ∧
    (∀ k', k' ≠ k → state (room_after (m r)) !! k' = state r !! k') ∧
    prop (state (room_after ((m;; m) r))) k = VBool b ∧
    updates (trace ((m;; m) r)) =
      (if socket r is Some _
       then [ {[ k := VBool (negb b) ]}; {[ k := VBool b ]} ]
       else []).

(** ** The reconciliation contract in the words of the specification *)

(** Follows the specification's sentence, not the source: true iff
    [duration > 0] and [|localPlayed - remotePlayed| * duration > 2]. *)
Definition shouldResync (localPlayed remotePlayed duration : float) : bool :=
  (0 <? duration)%float && (2 <? abs (localPlayed - remotePlayed) * duration)%float.

(** ** A sample platform and sample sessions *)

Definition sample_host : Host :=
  {| REACT_APP_DOCKER := None;
     canPlay := λ url, String.prefix "https://" url;
     parseFloat := λ s, if String.eqb s "0.5" then 0.5%float
                        else if String.eqb s "0.25" then 0.25%float else nan;
     StringToNumber := λ _, nan;
     ObjectToNumber := λ _, nan |}.

(** Room "r1" after the first render and [componentDidMount]. *)
Definition r1_mounted : Room :=
  room_after (@componentDidMount sample_host (attach_player (constructor "r1"))).

(** ... and after the transport has connected. *)
Definition r1_connected : Room :=
  room_after (transport_connect r1_mounted).

(** A connected session of a 100 second medium, playing at [played]. *)
Definition r1_playing_at (played : float) : Room :=
  room_after
    ((onDuration 100%float;;
      onProgress {[ "played" := VNumber played;
                                 "loaded" := VNumber played ]}) r1_connected).

(** The same while the local scrub control is held. *)
Definition r1_seeking_at (played : float) : Room :=
  room_after (handleSeekMouseDown (r1_playing_at played)).

(** The same session after the loop button was clicked once. *)
Definition r1_looping : Room :=
  room_after (onClick_loop r1_connected).

(** Sample inbound deltas. *)
Definition delta_played (played : float) : object :=
  {[ "played" := VNumber played ]}.

Definition delta_restart : object :=
  {[ "played" := VNumber 0; "playing" := VBool true ]}.

Definition delta_progress_volume : object :=
  {[ "played" := VNumber 0.9; "loaded" := VNumber 0.95; "volume" := VNumber 0.5 ]}.

Definition delta_remote_seeking : object :=
  {[ "seeking" := VBool true ]}.

Definition delta_volume : object :=
  {[ "volume" := VNumber 0.8 ]}.


(** A sample session: play, a scrub to the middle, a medium the player
    cannot play, pause, mute. *)
Definition sample_calls : list call :=
  [ CallReady; CallDuration 100; CallPlay;
    CallProgress {[ "played" := VNumber 0.1; "loaded" := VNumber 0.2 ]};
    CallSeekMouseDown; CallSeekChange "0.25"; CallSeekChange "0.5";
    CallSeekMouseUp "0.5"; CallChangeToURL "not a url"; CallPause;
    CallClickMuted; CallEnded ].

(** * Properties *)

(** ** Floating-point facts behind the drift gate *)

Lemma binary_round_aux_sign p e s m ex l :
  binary_round_aux p e s m ex l = S754_nan ∨
  (∃ s', binary_round_aux p e s m ex l = S754_zero s' ∧ s' = s) ∨
  (∃ s', binary_round_aux p e s m ex l = S754_infinity s' ∧ s' = s) ∨
  (∃ s' m' e', binary_round_aux p e s m ex l = S754_finite s' m' e' ∧ s' = s).
Proof.
  unfold binary_round_aux.
  destruct (shr_fexp p e m ex l) as [mrs1 e1].
  destruct (shr_fexp p e _ e1 loc_Exact) as [mrs2 e2].
  destruct (shr_m mrs2); [| destruct (Z.leb _ _) |]; eauto 10.
Qed.

(** A product with an absolute value that exceeds two has a positive
    second factor: NaN, zeros and negative factors never compare above 2. *)
Lemma product_gt_two_pos (x d : float) :
  (2 <? abs x * d)%float = true → (0 <? d)%float = true.
Proof.
  rewrite !ltb_spec, mul_spec, abs_spec.
  change (Prim2SF 2) with (S754_finite false 4503599627370496 (-51)).
  change (Prim2SF 0) with (S754_zero false).
  destruct (Prim2SF x) as [sx|sx| |sx mx ex], (Prim2SF d) as [sd|sd| |sd md ed];
    cbn -[binary_round_aux]; try discriminate;
    try (destruct sd; (discriminate || reflexivity)).
  destruct sd; [|reflexivity]. intros Hlt. exfalso.
  destruct (binary_round_aux_sign prec emax true (Z.pos (mx * md)) (ex + ed) loc_Exact)
    as [E|[(s'&E&->)|[(s'&E&->)|(s'&m'&e'&E&->)]]];
    cbn [xorb] in Hlt; rewrite E in Hlt; discriminate.
Qed.

(** Unfolds the monadic plumbing of a method body, leaving the tests it
    branches on. *)
Ltac run_body :=
  cbv [mbind mret M_bind M_ret this put perform throw setState
       socket_nonnull socket_emit socket_on socket_disconnect player_seekTo
       console_debug console_log outcome room_after trace];
  cbn [state socket player_current props_roomId connected listeners
       with_state with_socket app fst snd].

(** Closes an equation between closed terms by evaluating both sides;
    the kernel redoes the evaluation when the proof is closed. *)
Ltac by_evaluation :=
  lazymatch goal with
  | |- ?a = _ => vm_cast_no_check (eq_refl a)
  end.

Section Properties.
Context `{host : Host}.

Lemma drift_exceeds_duration_pos lp rp d :
  drift_exceeds lp rp d = true → (0 <? d)%float = true.
Proof. apply product_gt_two_pos. Qed.

(** ** Equations of the methods *)

Lemma prop_singleton (k : string) (v : value) : prop {[ k := v ]} k = v.
Proof. unfold prop. by rewrite lookup_singleton_eq. Qed.

Lemma bind_normal {A B} (m : M A) (k : A → M B) r a r1 t1 :
  m r = (Normal a, r1, t1) →
  (m ≫= k) r = ((k a r1).1.1, (k a r1).1.2, t1 ++ (k a r1).2).
Proof.
  intros Hm. unfold mbind, M_bind. rewrite Hm.
  by destruct (k a r1) as [[c r2] t2].
Qed.

Lemma this_bind {B} (k : Room → M B) r : (this ≫= k) r = k r r.
Proof. unfold mbind, M_bind, this. by destruct (k r r) as [[c r2] t2]. Qed.

Lemma setState_eq data r :
  setState data r = (Normal (), with_state (merge data (state r)) r, []).
Proof. reflexivity. Qed.

Lemma updateState_eq data r :
  updateState data r =
    (Normal (), with_state (merge data (state r)) r,
     if socket r is Some _
     then [ConsoleDebug "Updating to remote:" data; SocketEmit "update" data]
     else []).
Proof. unfold updateState. destruct r as [rid st pc [sk|]]; reflexivity. Qed.

Lemma on_status_eq data r :
  on_status data r =
    (Normal (), with_state (merge data (state r)) r,
     ConsoleDebug "Update from server:" data ::
     if reconciliation_gate (state r) data && player_current r
     then [PlayerSeekTo (prop data "played") (Some "fraction")]
     else []).
Proof.
  unfold on_status, reconciliation_gate.
  destruct r as [rid st pc sk]; run_body.
  destruct (ToBoolean (prop data "played")); [|reflexivity].
  destruct (drift_exceeds _ _ _); [|reflexivity].
  destruct pc; reflexivity.
Qed.

Lemma elem_of_trace_on_status data r e :
  e ∈ trace (on_status data r) ↔
    e = ConsoleDebug "Update from server:" data ∨
    (reconciliation_gate (state r) data && player_current r = true ∧
     e = PlayerSeekTo (prop data "played") (Some "fraction")).
Proof.
  rewrite on_status_eq. unfold trace. cbn [snd].
  rewrite elem_of_cons.
  destruct (reconciliation_gate (state r) data && player_current r).
  - rewrite list_elem_of_singleton.
    split; [intros [->| ->] | intros [->|[_ ->]]]; auto.
  - rewrite elem_of_nil.
    split; [intros [->|[]] | intros [->|[[=] _]]]; auto.
Qed.

(** ** The reconciliation gate (C1, C10) *)

(** C1, as the code has it: on a session whose player is attached, the
    status listener seeks the local player if and only if the delta
    carries a truthy (present, non-zero, non-NaN) [played], the duration
    is positive and [|localPlayed - remotePlayed| * duration > 2]; the
    only seek it ever performs is the absolute seek to the delta's
    [played] as a fraction. *)
Theorem gate_fires_iff (data : object) (r : Room) :
  player_current r = true →
  let localPlayed := ToNumber (prop (state r) "played") in
  let remotePlayed := ToNumber (prop data "played") in
  let duration := ToNumber (prop (state r) "duration") in
  (PlayerSeekTo (prop data "played") (Some "fraction") ∈ trace (on_status data r)
   ↔ ToBoolean (prop data "played") = true ∧
     (0 <? duration)%float = true ∧
     (2 <? abs (localPlayed - remotePlayed) * duration)%float = true) ∧
  (∀ amount type, PlayerSeekTo amount type ∈ trace (on_status data r) →
     amount = prop data "played" ∧ type = Some "fraction").
Proof.
  intros Hpc localPlayed remotePlayed duration. split.
  - rewrite elem_of_trace_on_status, Hpc, andb_true_r.
    unfold reconciliation_gate.
    fold localPlayed remotePlayed duration.
    destruct (ToBoolean (prop data "played")).
    + split.
      * intros [[=]|[Hgate _]]. split; [done|]. split; [|exact Hgate].
        by apply (drift_exceeds_duration_pos localPlayed remotePlayed).
      * intros (_ & _ & Hgate). right. split; [exact Hgate | done].
    + split; [intros [[=]|[[=] _]] | intros ([=] & _)].
  - intros amount type [[=]|[_ [= -> ->]]]%elem_of_trace_on_status. done.
Qed.

(** C10: a delta whose [played] is absent or equal to zero never moves the
    local player, however far the local position is from zero, and is
    merged into the local state all the same. *)
Theorem zero_played_never_seeks (data : object) (r : Room) :
  (data !! "played" = None ∨
   ∃ x, data !! "played" = Some (VNumber x) ∧ (x =? 0)%float = true) →
  count is_seek (trace (on_status data r)) = 0 ∧
  (∀ amount type, PlayerSeekTo amount type ∉ trace (on_status data r)) ∧
  outcome (on_status data r) = Normal () ∧
  state (room_after (on_status data r)) = merge data (state r) ∧
  (∀ k v, data !! k = Some v → state (room_after (on_status data r)) !! k = Some v).
Proof.
  intros Hzero.
  assert (reconciliation_gate (state r) data = false) as Hgate.
  { unfold reconciliation_gate, prop.
    destruct Hzero as [-> | (x & -> & Hx)]; cbn; [done|]. by rewrite Hx. }
  rewrite on_status_eq, Hgate. cbn.
  split; [done|]. split.
  - intros amount type [[=]|[]%elem_of_nil]%elem_of_cons.
  - split; [done|]. split; [done|].
    intros k v Hk. unfold merge. by apply lookup_union_Some_l.
Qed.

(** ** What the listener emits *)

(** The status listener performs no [emit] at all, whatever the delta and
    the session; it only merges the delta into the local state.  The same
    holds for any inbound event the socket hands to the component. *)
Lemma on_status_never_emits (data : object) (r : Room) :
  (∀ event payload, SocketEmit event payload ∉ trace (on_status data r)) ∧
  count is_emit (trace (on_status data r)) = 0 ∧
  updates (trace (on_status data r)) = [] ∧
  room_after (on_status data r) = with_state (merge data (state r)) r ∧
  (∀ inbound event payload,
     SocketEmit event payload ∉ trace (deliver inbound data r)).
Proof.
  assert (∀ event payload, SocketEmit event payload ∉ trace (on_status data r))
    as Hnone.
  { intros event payload [[=]|[_ [=]]]%elem_of_trace_on_status. }
  split; [exact Hnone|].
  rewrite on_status_eq. unfold trace, room_after. cbn [fst snd].
  split; [|split; [|split]].
  - by destruct (reconciliation_gate (state r) data && player_current r).
  - by destruct (reconciliation_gate (state r) data && player_current r).
  - reflexivity.
  - intros inbound event payload. unfold deliver. rewrite this_bind.
    destruct (socket r) as [sk|]; [|by intros []%elem_of_nil].
    destruct (connected sk && bool_decide (inbound ∈ listeners sk)
              && String.eqb inbound "status");
      [apply Hnone | by intros []%elem_of_nil].
Qed.

(** ** Merging a delta (C6) *)

(** C6: what [setState], [updateState] and the status listener leave as
    the component's state is the field-wise overwrite of the state by the
    delta: a property present in the delta has the delta's value, every
    other property has the value it had.  Merging the same delta a second
    time therefore changes nothing: on objects, through [setState],
    through [updateState] and through the listener. *)
Theorem merge_idempotent (d s : object) :
  merge d (merge d s) = merge d s ∧
  (∀ k, merge d s !! k = match d !! k with Some v => Some v | None => s !! k end) ∧
  (∀ r, state (room_after ((setState d;; setState d) r))
        = state (room_after (setState d r))) ∧
  (∀ r, room_after ((updateState d;; updateState d) r)
        = room_after (updateState d r)) ∧
  (∀ r, state (room_after (setState d r)) = merge d (state r) ∧
        state (room_after (updateState d r)) = merge d (state r) ∧
        state (room_after (on_status d r)) = merge d (state r)) ∧
  (∀ r k,
     state (room_after (setState d r)) !! k
       = match d !! k with Some v => Some v | None => state r !! k end ∧
     state (room_after (updateState d r)) !! k
       = match d !! k with Some v => Some v | None => state r !! k end ∧
     state (room_after (on_status d r)) !! k
       = match d !! k with Some v => Some v | None => state r !! k end) ∧
  (∀ r, state (room_after ((updateState d;; updateState d) r)) = merge d (state r) ∧
        state (room_after ((on_status d;; on_status d) r)) = merge d (state r)).
Proof.
  assert (∀ s', merge d (merge d s') = merge d s') as Hidem.
  { intros s'. unfold merge. by rewrite (assoc_L (∪)), (idemp_L (∪)). }
  assert (∀ s' k, merge d s' !! k
                  = match d !! k with Some v => Some v | None => s' !! k end)
    as Hfield.
  { intros s' k. unfold merge. rewrite lookup_union.
    by destruct (d !! k), (s' !! k). }
  assert (∀ r, state (room_after (setState d r)) = merge d (state r) ∧
               state (room_after (updateState d r)) = merge d (state r) ∧
               state (room_after (on_status d r)) = merge d (state r)) as Hstate.
  { intros r. by rewrite setState_eq, updateState_eq, on_status_eq. }
  split; [apply Hidem|]. split; [apply Hfield|].
  split; [intros r; cbn; apply Hidem|]. split.
  { intros r. erewrite bind_normal by apply updateState_eq.
    rewrite !updateState_eq. unfold room_after, with_state. cbn.
    by rewrite Hidem. }
  split; [exact Hstate|]. split.
  - intros r k. destruct (Hstate r) as (-> & -> & ->). by rewrite Hfield.
  - intros r. split.
    + erewrite bind_normal by apply updateState_eq.
      rewrite updateState_eq. unfold room_after. cbn. apply Hidem.
    + erewrite bind_normal by apply on_status_eq.
      rewrite on_status_eq. unfold room_after. cbn. apply Hidem.
Qed.

(** ** End of media (C5) *)

(** C5: [onEnded] with a truthy [loop] merges exactly [{playing: true,
    played: 0}] into the local state and publishes exactly that delta,
    and with a falsy [loop] exactly [{playing: false}].  The delta is
    published once, through the socket of the mounted component; a
    component without a socket only merges it. *)
Theorem onEnded_delta (r : Room) :
  (ToBoolean (prop (state r) "loop") = true →
   let d : object := {[ "playing" := VBool true; "played" := VNumber 0 ]} in
   room_after (onEnded r) = with_state (merge d (state r)) r ∧
   outcome (onEnded r) = Normal () ∧
   updates (trace (onEnded r)) = (if socket r is Some _ then [d] else []) ∧
   (∀ sk, socket r = Some sk →
      trace (onEnded r) =
        [ConsoleDebug "Updating to remote:" d; SocketEmit "update" d])) ∧
  (ToBoolean (prop (state r) "loop") = false →
   let d : object := {[ "playing" := VBool false ]} in
   room_after (onEnded r) = with_state (merge d (state r)) r ∧
   outcome (onEnded r) = Normal () ∧
   updates (trace (onEnded r)) = (if socket r is Some _ then [d] else []) ∧
   (∀ sk, socket r = Some sk →
      trace (onEnded r) =
        [ConsoleDebug "Updating to remote:" d; SocketEmit "update" d])).
Proof.
  assert (∀ d, onEnded r = updateState d r →
    room_after (onEnded r) = with_state (merge d (state r)) r ∧
    outcome (onEnded r) = Normal () ∧
    updates (trace (onEnded r)) = (if socket r is Some _ then [d] else []) ∧
    (∀ sk, socket r = Some sk →
       trace (onEnded r) =
         [ConsoleDebug "Updating to remote:" d; SocketEmit "update" d])) as Hupd.
  { intros d ->. rewrite updateState_eq.
    unfold room_after, outcome, trace. cbn [fst snd].
    destruct (socket r); repeat split; try done. }
  split; intros Hloop d; apply Hupd;
    unfold onEnded; rewrite this_bind; by rewrite Hloop.
Qed.

(** ** Joining (C7) *)

Lemma componentDidMount_eq r :
  componentDidMount r =
    (Normal (),
     with_socket (Some {| connected := false; listeners := ["status"] |}) r,
     [SocketOpen ENDPOINT (props_roomId r);
      SocketEmit "update" (initial_update (state r));
      SocketOn "status"]).
Proof. destruct r as [rid st pc sk]. reflexivity. Qed.

(** C7: [componentDidMount] on the freshly constructed component opens
    the channel, publishes exactly one ["update"], whose payload is the
    twelve playback fields at their constructor defaults, and only then
    registers the ["status"] listener; before it has run, an inbound
    ["status"] is not processed at all.  For every component the payload
    is the twelve fields read from its current state. *)
Theorem componentDidMount_publishes_defaults (roomId : string) :
  let r := constructor roomId in
  let defaults : object :=
    {[ "url" := VString "https://youtu.be/Bi11Iid2hmo";
       "playing" := VBool true;
       "volume" := VNumber 0.3;
       "muted" := VBool true;
       "played" := VNumber 0;
       "loaded" := VNumber 0;
       "duration" := VNumber 0;
       "playbackRate" := VNumber 1;
       "loop" := VBool false;
       "ready" := VBool false;
       "buffering" := VBool false;
       "seeking" := VBool false ]} in
  trace (componentDidMount r) =
    [SocketOpen ENDPOINT roomId; SocketEmit "update" defaults; SocketOn "status"] ∧
  updates (trace (componentDidMount r)) = [defaults] ∧
  count is_emit (trace (componentDidMount r)) = 1 ∧
  outcome (componentDidMount r) = Normal () ∧
  state (room_after (componentDidMount r)) = state r ∧
  (∀ data, deliver "status" data r = (Normal (), r, [])) ∧
  (∀ r' : Room,
     trace (componentDidMount r') =
       [SocketOpen ENDPOINT (props_roomId r');
        SocketEmit "update" (initial_update (state r'));
        SocketOn "status"] ∧
     dom (initial_update (state r')) =
       {[ "url"; "playing"; "volume"; "muted"; "played"; "loaded"; "duration";
          "playbackRate"; "loop"; "ready"; "buffering"; "seeking" ]}).
Proof.
  intros r defaults.
  assert (initial_update (state r) = defaults) as Hpayload.
  { subst r defaults. by_evaluation. }
  rewrite componentDidMount_eq. unfold trace, outcome, room_after. cbn [fst snd].
  rewrite Hpayload.
  do 5 (split; [reflexivity|]). split.
  - intros data. reflexivity.
  - intros r'. rewrite componentDidMount_eq. split; [reflexivity|].
    unfold initial_update. rewrite !dom_insert_L, dom_singleton_L. set_solver.
Qed.

(** ** Leaving (C8) *)

(** C8, as the code has it: on a mounted component, two calls of
    [componentWillUnmount] in succession both complete without an error,
    the second does nothing, and together they call [disconnect] once when
    the socket was connected at the first call and not at all when it was
    not. *)
Theorem componentWillUnmount_twice (r : Room) (sk : Socket) :
  socket r = Some sk →
  let first := componentWillUnmount r in
  let second := componentWillUnmount (room_after first) in
  outcome first = Normal () ∧
  outcome second = Normal () ∧
  trace second = [] ∧
  room_after second = room_after first ∧
  count is_disconnect (trace first ++ trace second) =
    (if connected sk then 1 else 0) ∧
  (componentWillUnmount;; componentWillUnmount) r =
    (Normal (), room_after first, trace first).
Proof.
  destruct r as [rid st pc sk0]. cbn [socket]. intros ->.
  destruct sk as [[] ls]; cbn; done.
Qed.

(** ** Changing the medium (C4) *)

(** C4, as the code has it: on a URL the player can play, [changeToURL]
    merges exactly [{url, ready: false, played: 0, loaded: 0, playing:
    true}] over the state (and publishes it when there is a socket); on a
    URL it cannot play, the call completes normally, without raising,
    writes one line to the console and leaves the component as it was. *)
Theorem changeToURL_spec (url : string) (r : Room) :
  (canPlay url = true →
   let d : object :=
     {[ "url" := VString url; "ready" := VBool false; "played" := VNumber 0;
        "loaded" := VNumber 0; "playing" := VBool true ]} in
   changeToURL url r =
     (Normal (), with_state (merge d (state r)) r,
      if socket r is Some _
      then [ConsoleDebug "Updating to remote:" d; SocketEmit "update" d]
      else [])) ∧
  (canPlay url = false →
   changeToURL url r =
     (Normal (), r, [ConsoleLog [VString "Error, cannot play url:"; VString url]]) ∧
   ¬ raises (changeToURL url r)).
Proof.
  unfold changeToURL. split; intros Hplay; rewrite Hplay.
  - cbv zeta. unfold load. by rewrite updateState_eq.
  - split; [done|]. intros [e [=]].
Qed.

(** ** The scrub gesture (C3) *)

Lemma handleSeekChanges_eq values : ∀ r sk,
  socket r = Some sk →
  handleSeekChanges values r =
    (Normal (),
     with_state (foldl (λ st v, merge (played_delta v) st) (state r) values) r,
     flat_map (λ v, [ConsoleDebug "Updating to remote:" (played_delta v);
                     SocketEmit "update" (played_delta v)]) values).
Proof.
  induction values as [|v values IH]; intros r sk Hsk.
  - by destruct r.
  - cbn [handleSeekChanges foldl].
    erewrite bind_normal by (unfold handleSeekChange; apply updateState_eq).
    rewrite Hsk. erewrite IH by exact Hsk. reflexivity.
Qed.

Lemma updates_app t1 t2 : updates (t1 ++ t2) = updates t1 ++ updates t2.
Proof. apply omap_app. Qed.

Lemma updates_handleSeekChanges (values : list string) :
  updates (flat_map (λ v, [ConsoleDebug "Updating to remote:" (played_delta v);
                           SocketEmit "update" (played_delta v)]) values)
  = played_delta <$> values.
Proof.
  induction values as [|v values IH]; [done|].
  cbn. f_equal. exact IH.
Qed.

(** C3, as the code has it: on a session with a socket every step of the
    scrub gesture goes through [updateState] and is published.  Each
    [handleSeekChange v] merges [{played: parseFloat v}] into the local
    state and publishes that same delta; [handleSeekMouseUp v] publishes
    exactly [{seeking: false}], without [played], and then seeks the
    local player to [parseFloat v]; a gesture with [n] slider changes
    publishes [n + 2] deltas, in the order they were made. *)
Theorem seek_gesture_publishes_every_step
    (values : list string) (final : string) (r : Room) (sk : Socket) :
  socket r = Some sk →
  handleSeekChange final r =
    (Normal (), with_state (merge (played_delta final) (state r)) r,
     [ConsoleDebug "Updating to remote:" (played_delta final);
      SocketEmit "update" (played_delta final)]) ∧
  handleSeekMouseUp final r =
    (Normal (), with_state (merge {[ "seeking" := VBool false ]} (state r)) r,
     [ConsoleDebug "Updating to remote:" {[ "seeking" := VBool false ]};
      SocketEmit "update" {[ "seeking" := VBool false ]}] ++
     if player_current r then [PlayerSeekTo (VNumber (parseFloat final)) None] else []) ∧
  updates (trace (seek_gesture values final r)) =
    {[ "seeking" := VBool true ]} :: (played_delta <$> values)
      ++ [{[ "seeking" := VBool false ]}] ∧
  length (updates (trace (seek_gesture values final r))) = length values + 2.
Proof.
  intros Hsk.
  assert (handleSeekMouseUp final r =
    (Normal (), with_state (merge {[ "seeking" := VBool false ]} (state r)) r,
     [ConsoleDebug "Updating to remote:" {[ "seeking" := VBool false ]};
      SocketEmit "update" {[ "seeking" := VBool false ]}] ++
     if player_current r then [PlayerSeekTo (VNumber (parseFloat final)) None] else []))
    as Hup.
  { unfold handleSeekMouseUp.
    erewrite bind_normal by apply updateState_eq.
    rewrite Hsk. destruct r as [rid st [] s0]; reflexivity. }
  assert (updates (trace (seek_gesture values final r)) =
    {[ "seeking" := VBool true ]} :: (played_delta <$> values)
      ++ [{[ "seeking" := VBool false ]}]) as Hall.
  { unfold seek_gesture.
    erewrite bind_normal by (unfold handleSeekMouseDown; apply updateState_eq).
    rewrite Hsk.
    erewrite (bind_normal (handleSeekChanges values))
      by (eapply handleSeekChanges_eq; exact Hsk).
    unfold handleSeekMouseUp.
    erewrite bind_normal by apply updateState_eq.
    cbn [socket with_state]. rewrite Hsk.
    unfold trace. cbn [fst snd].
    rewrite !updates_app, updates_handleSeekChanges.
    unfold player_seekTo. rewrite this_bind.
    cbn [player_current with_state].
    by destruct (player_current r). }
  split; [by unfold handleSeekChange; rewrite updateState_eq, Hsk|].
  split; [exact Hup|]. split; [exact Hall|].
  rewrite Hall. cbn. rewrite length_app, length_fmap. cbn. lia.
Qed.

(** ** The status listener and the seeking flag (C2) *)

(** The listener never reads [seeking]: whatever the flag holds, the same
    effects are performed and the same properties are written. *)
Lemma on_status_blind_to_seeking (data : object) (r : Room) (flag : value) :
  let r' := with_state (<["seeking" := flag]> (state r)) r in
  trace (on_status data r') = trace (on_status data r) ∧
  ∀ k, data !! k ≠ None →
       state (room_after (on_status data r')) !! k
       = state (room_after (on_status data r)) !! k.
Proof.
  intros r'. rewrite !on_status_eq. unfold trace, room_after. cbn [fst snd].
  split.
  - unfold reconciliation_gate, prop. subst r'. cbn [state with_state player_current].
    by rewrite !lookup_insert_ne.
  - intros k Hk. subst r'. cbn [state with_state]. unfold merge.
    rewrite !lookup_union. destruct (data !! k); [|done].
    by destruct (_ !! k), (_ !! k).
Qed.

End Properties.

(** * The properties on the sample sessions *)

(** The session used below plays a 100 second medium. *)
Lemma r1_playing_at_state (played : float) :
  prop (state (r1_playing_at played)) "played" = VNumber played ∧
  prop (state (r1_playing_at played)) "duration" = VNumber 100 ∧
  player_current (r1_playing_at played) = true ∧
  socket (r1_playing_at played) = Some {| connected := true; listeners := ["status"] |}.
Proof. repeat split; by_evaluation. Qed.

(** With duration 100 and the local position at 0.10, a delta at 0.13 (3
    seconds of drift) moves the player and a delta at 0.115 (1.5 seconds)
    does not. *)
Lemma gate_fires_iff_witness :
  player_current (r1_playing_at 0.10) = true ∧
  PlayerSeekTo (VNumber 0.13) (Some "fraction")
    ∈ trace (@on_status sample_host (delta_played 0.13) (r1_playing_at 0.10)) ∧
  PlayerSeekTo (VNumber 0.115) (Some "fraction")
    ∉ trace (@on_status sample_host (delta_played 0.115) (r1_playing_at 0.10)).
Proof.
  assert (player_current (r1_playing_at 0.10) = true) as Hpc by by_evaluation.
  pose proof (λ x, prop_singleton "played" (VNumber x)) as Hread.
  pose proof (proj1 (@gate_fires_iff sample_host
                (delta_played 0.13) (r1_playing_at 0.10) Hpc)) as Hnear.
  pose proof (proj1 (@gate_fires_iff sample_host
                (delta_played 0.115) (r1_playing_at 0.10) Hpc)) as Hfar.
  unfold delta_played in Hnear, Hfar at 1 2 4. rewrite Hread in Hnear, Hfar.
  split; [exact Hpc|]. split.
  - apply Hnear. repeat split; by_evaluation.
  - intros Hin. apply Hfar in Hin as (_ & _ & Hgt).
    assert ((2 <? abs (@ToNumber sample_host (prop (state (r1_playing_at 0.10)) "played")
                       - @ToNumber sample_host (VNumber 0.115))
                  * @ToNumber sample_host (prop (state (r1_playing_at 0.10)) "duration"))%float
            = false) as Hle by by_evaluation.
    rewrite Hle in Hgt. discriminate Hgt.
Defined.

(** C1 as stated fails: at local 0.5, remote 0 and duration 100 (50
    seconds of drift) the gate of the specification holds, and the
    listener performs no seek. *)
Lemma gate_silent_at_zero :
  ¬ ((∃ amount type,
        PlayerSeekTo amount type
          ∈ trace (@on_status sample_host (delta_played 0) (r1_playing_at 0.5)))
     ↔ shouldResync
         (@ToNumber sample_host (prop (state (r1_playing_at 0.5)) "played"))
         (@ToNumber sample_host (prop (delta_played 0) "played"))
         (@ToNumber sample_host (prop (state (r1_playing_at 0.5)) "duration")) = true).
Proof.
  intros [_ Hfire].
  destruct Hfire as (amount & type & Hin); [by_evaluation|].
  apply elem_of_trace_on_status in Hin as [[=]|[Hgate _]].
  assert (@reconciliation_gate sample_host (state (r1_playing_at 0.5)) (delta_played 0)
          = false) as Hoff by by_evaluation.
  rewrite Hoff in Hgate. discriminate Hgate.
Qed.

(** The local position is at 0.9 of 100 seconds; a delta restarting at 0
    is merged and the player is not moved. *)
Lemma zero_played_never_seeks_witness :
  count is_seek (trace (@on_status sample_host delta_restart (r1_playing_at 0.9))) = 0 ∧
  prop (state (room_after (@on_status sample_host delta_restart (r1_playing_at 0.9))))
       "played" = VNumber 0.
Proof.
  assert (delta_restart !! "played" = None ∨
          ∃ x, delta_restart !! "played" = Some (VNumber x) ∧ (x =? 0)%float = true)
    as Hzero.
  { right. exists 0%float. split; by_evaluation. }
  destruct (@zero_played_never_seeks sample_host delta_restart (r1_playing_at 0.9) Hzero)
    as (Hcount & _ & _ & _ & Hfields).
  split; [exact Hcount|].
  unfold prop. rewrite (Hfields "played" (VNumber 0)); [reflexivity | by_evaluation].
Defined.

(** C2 at a failing input: the local scrub control is held at 0.2 of a
    100 second medium, and a delta [{played: 0.9, loaded: 0.95, volume:
    0.5}] arrives.  The listener seeks the player to 0.9 and overwrites
    [played] and [loaded]; [volume] is merged. *)
Lemma on_status_ignores_seeking :
  prop (state (r1_seeking_at 0.2)) "seeking" = VBool true ∧
  prop (state (r1_seeking_at 0.2)) "played" = VNumber 0.2 ∧
  prop (state (r1_seeking_at 0.2)) "loaded" = VNumber 0.2 ∧
  trace (@on_status sample_host delta_progress_volume (r1_seeking_at 0.2)) =
    [ConsoleDebug "Update from server:" delta_progress_volume;
     PlayerSeekTo (VNumber 0.9) (Some "fraction")] ∧
  state (room_after (@on_status sample_host delta_progress_volume (r1_seeking_at 0.2)))
    = merge delta_progress_volume (state (r1_seeking_at 0.2)) ∧
  prop (merge delta_progress_volume (state (r1_seeking_at 0.2))) "played" = VNumber 0.9 ∧
  prop (merge delta_progress_volume (state (r1_seeking_at 0.2))) "loaded" = VNumber 0.95 ∧
  prop (merge delta_progress_volume (state (r1_seeking_at 0.2))) "volume" = VNumber 0.5 ∧
  prop (merge delta_progress_volume (state (r1_seeking_at 0.2))) "seeking" = VBool true.
Proof. repeat split; by_evaluation. Qed.

(** A gesture over the slider positions 0.25 and 0.5, released at 0.5,
    publishes four deltas. *)
Lemma seek_gesture_publishes_every_step_witness :
  socket r1_connected = Some {| connected := true; listeners := ["status"] |} ∧
  updates (trace (@seek_gesture sample_host ["0.25"; "0.5"] "0.5" r1_connected)) =
    [ {[ "seeking" := VBool true ]};
      {[ "played" := VNumber 0.25 ]};
      {[ "played" := VNumber 0.5 ]};
      {[ "seeking" := VBool false ]} ].
Proof.
  assert (socket r1_connected = Some {| connected := true; listeners := ["status"] |})
    as Hsk by by_evaluation.
  split; [exact Hsk|].
  destruct (@seek_gesture_publishes_every_step sample_host
              ["0.25"; "0.5"] "0.5" r1_connected _ Hsk) as (_ & _ & Hall & _).
  rewrite Hall. reflexivity.
Defined.

(** C3 as stated fails: a change of the slider publishes a delta, and
    the gesture begin, change to 0.5, end at 0.5 publishes three deltas,
    the last of which does not carry [played]. *)
Lemma seek_gesture_floods :
  ¬ (updates (trace (@handleSeekChange sample_host "0.5" r1_connected)) = [] ∧
     updates (trace (@seek_gesture sample_host ["0.5"] "0.5" r1_connected)) =
       [ {[ "seeking" := VBool false; "played" := VNumber 0.5 ]} ]).
Proof.
  intros [Hnone _].
  assert (updates (trace (@handleSeekChange sample_host "0.5" r1_connected))
          = [ {[ "played" := VNumber 0.5 ]} ]) as Hone by by_evaluation.
  rewrite Hone in Hnone. discriminate Hnone.
Qed.

(** What the same gesture does publish. *)
Lemma seek_gesture_floods_trace :
  updates (trace (@seek_gesture sample_host ["0.5"] "0.5" r1_connected)) =
    [ {[ "seeking" := VBool true ]};
      {[ "played" := VNumber 0.5 ]};
      {[ "seeking" := VBool false ]} ].
Proof. by_evaluation. Qed.

(** A playable and an unplayable URL on the connected session. *)
Lemma changeToURL_spec_witness :
  @canPlay sample_host "https://youtu.be/abc" = true ∧
  @canPlay sample_host "not a url" = false ∧
  prop (state (room_after (@changeToURL sample_host "https://youtu.be/abc" r1_connected)))
       "url" = VString "https://youtu.be/abc" ∧
  @changeToURL sample_host "not a url" r1_connected =
    (Normal (), r1_connected,
     [ConsoleLog [VString "Error, cannot play url:"; VString "not a url"]]).
Proof.
  assert (@canPlay sample_host "https://youtu.be/abc" = true) as Hyes by reflexivity.
  assert (@canPlay sample_host "not a url" = false) as Hno by reflexivity.
  split; [exact Hyes|]. split; [exact Hno|]. split.
  - rewrite (proj1 (@changeToURL_spec sample_host "https://youtu.be/abc" r1_connected) Hyes).
    by_evaluation.
  - exact (proj1 (proj2 (@changeToURL_spec sample_host "not a url" r1_connected) Hno)).
Defined.

(** C4 as stated fails: on a URL that fails the capability check the call
    completes normally; nothing is raised. *)
Lemma changeToURL_does_not_raise :
  @canPlay sample_host "not a url" = false ∧
  ¬ raises (@changeToURL sample_host "not a url" r1_connected).
Proof. split; [reflexivity|]. intros [e Hthrow]. discriminate Hthrow. Qed.

(** [onEnded] with the loop button on and off. *)
Lemma onEnded_delta_witness :
  ToBoolean (prop (state r1_looping) "loop") = true ∧
  updates (trace (onEnded r1_looping)) =
    [ {[ "playing" := VBool true; "played" := VNumber 0 ]} ] ∧
  ToBoolean (prop (state r1_connected) "loop") = false ∧
  updates (trace (onEnded r1_connected)) = [ {[ "playing" := VBool false ]} ].
Proof.
  assert (ToBoolean (prop (state r1_looping) "loop") = true) as Hon by by_evaluation.
  assert (ToBoolean (prop (state r1_connected) "loop") = false) as Hoff by by_evaluation.
  assert (socket r1_looping = Some {| connected := true; listeners := ["status"] |})
    as Hsk1 by by_evaluation.
  assert (socket r1_connected = Some {| connected := true; listeners := ["status"] |})
    as Hsk2 by by_evaluation.
  split; [exact Hon|]. split; [|split; [exact Hoff|]].
  - destruct (proj1 (onEnded_delta r1_looping) Hon) as (_ & _ & Hpub & _).
    rewrite Hpub, Hsk1. reflexivity.
  - destruct (proj2 (onEnded_delta r1_connected) Hoff) as (_ & _ & Hpub & _).
    rewrite Hpub, Hsk2. reflexivity.
Defined.

(** Leaving the connected session twice disconnects once. *)
Lemma componentWillUnmount_twice_witness :
  socket r1_connected = Some {| connected := true; listeners := ["status"] |} ∧
  count is_disconnect
    (trace (componentWillUnmount r1_connected) ++
     trace (componentWillUnmount (room_after (componentWillUnmount r1_connected)))) = 1 ∧
  outcome (componentWillUnmount (room_after (componentWillUnmount r1_connected)))
    = Normal ().
Proof.
  assert (socket r1_connected = Some {| connected := true; listeners := ["status"] |})
    as Hsk by by_evaluation.
  destruct (componentWillUnmount_twice r1_connected _ Hsk)
    as (_ & Hsecond & _ & _ & Hcount & _).
  split; [exact Hsk|]. split; [exact Hcount | exact Hsecond].
Defined.

(** C8 as stated fails: right after mounting the socket exists and is not
    yet connected; leaving twice then never calls [disconnect]. *)
Lemma componentWillUnmount_before_connect :
  socket r1_mounted = Some {| connected := false; listeners := ["status"] |} ∧
  outcome ((componentWillUnmount;; componentWillUnmount) r1_mounted) = Normal () ∧
  ¬ (count is_disconnect
       (trace ((componentWillUnmount;; componentWillUnmount) r1_mounted)) = 1).
Proof.
  split; [by_evaluation|]. split; [by_evaluation|].
  assert (count is_disconnect
            (trace ((componentWillUnmount;; componentWillUnmount) r1_mounted)) = 0)
    as Hnone by by_evaluation.
  rewrite Hnone. discriminate.
Qed.

(** * Further properties of the component *)

(** ** Floating point: equal positions *)


(** Settles a decidable closed proposition by evaluating its decision. *)
Ltac by_decision :=
  lazymatch goal with
  | |- ?P => apply (bool_decide_eq_true_1 P); by_evaluation
  end.

(** Case analysis on the tests a method body branches on. *)
Ltac split_tests :=
  repeat (run_body;
          match goal with
          | |- context [if ?b then _ else _] => destruct b
          end).

(** Every call on every shape of component, with the body of the called
    method laid open. *)
Ltac step_cases c r :=
  destruct c; destruct r as [rid st pc [[cn ls]|]];
  cbn [goes_through_updateState calls_seekTo writes];
  cbv [handle on_status componentWillUnmount changeToURL load
       handleSeekMouseDown handleSeekChange handleSeekMouseUp
       onReady onStart onPlay onPause onBuffer onBufferEnd onSeek onEnded
       onError onProgress onDuration onClick_playing onClick_muted
       onClick_loop updateState];
  split_tests; run_body.

Lemma count_app p t1 t2 : count p (t1 ++ t2) = count p t1 + count p t2.
Proof. unfold count. by rewrite List.filter_app, length_app. Qed.

Section Sessions.
Context `{host : Host}.

(** What one call does to the component around the state, and what it
    can emit and seek. *)
Lemma handle_step (c : call) (r : Room) :
  (props_roomId (room_after (handle c r)) = props_roomId r ∧
   player_current (room_after (handle c r)) = player_current r ∧
   listeners <$> socket (room_after (handle c r)) = listeners <$> socket r) ∧
  (is_Some (socket r) → outcome (handle c r) = Normal ()) ∧
  (count is_emit (trace (handle c r)) = length (updates (trace (handle c r))) ∧
   length (updates (trace (handle c r)))
     ≤ (if goes_through_updateState c then 1 else 0) ∧
   (socket r = None → count is_emit (trace (handle c r)) = 0)) ∧
  (count is_seek (trace (handle c r)) ≤ (if calls_seekTo c then 1 else 0) ∧
   (player_current r = false → count is_seek (trace (handle c r)) = 0)).
Proof.
  step_cases c r.
  all: cbn.
  all: repeat split; try reflexivity; try lia; try done.
  all: by intros [? [=]].
Qed.

Lemma run_cons (c : call) (cs : list call) (r : Room) :
  run (c :: cs) r =
    (outcome (handle c r) :: session_outcomes (run cs (room_after (handle c r))),
     session_room (run cs (room_after (handle c r))),
     trace (handle c r) ++ session_trace (run cs (room_after (handle c r)))).
Proof. reflexivity. Qed.



Lemma session_emits_are_updates (calls : list call) (r : Room) :
  count is_emit (session_trace (run calls r))
    = length (updates (session_trace (run calls r))).
Proof.
  revert r. induction calls as [|c cs IH]; intros r; [reflexivity|].
  destruct (handle_step c r) as (_ & _ & (Hem & _ & _) & _).
  rewrite run_cons. unfold session_trace in *. cbn [snd].
  by rewrite count_app, updates_app, length_app, Hem, IH.
Qed.

(** Nothing but ["update"] is ever emitted, and a session emits at most
    one message per call that goes through [updateState]: the listener
    and the console-only callbacks emit nothing. *)
Theorem session_emits_at_most_once_per_call (calls : list call) (r : Room) :
  count is_emit (session_trace (run calls r))
    = length (updates (session_trace (run calls r))) ∧
  length (updates (session_trace (run calls r)))
    ≤ length (List.filter goes_through_updateState calls).
Proof.
  split; [apply session_emits_are_updates|].
  revert r. induction calls as [|c cs IH]; intros r.
  - cbn; lia.
  - destruct (handle_step c r) as (_ & _ & (_ & Hle & _) & _).
    specialize (IH (room_after (handle c r))).
    rewrite run_cons. unfold session_trace in *. cbn [snd].
    rewrite updates_app, length_app.
    cbn [List.filter]. destruct (goes_through_updateState c); cbn [length]; lia.
Qed.

(** The player is only ever moved by the ["status"] listener and by
    [handleSeekMouseUp], at most once per call, and never while the
    player reference is empty. *)
Theorem session_seeks_only_on_status_and_mouse_up (calls : list call) (r : Room) :
  count is_seek (session_trace (run calls r))
    ≤ length (List.filter calls_seekTo calls) ∧
  (player_current r = false → count is_seek (session_trace (run calls r)) = 0).
Proof.
  revert r. induction calls as [|c cs IH]; intros r.
  - split; [cbn; lia | reflexivity].
  - destruct (handle_step c r) as ((_ & Hpc & _) & _ & _ & (Hle & Hnone)).
    destruct (IH (room_after (handle c r))) as [IHle IHnone].
    rewrite run_cons. unfold session_trace in *. cbn [snd].
    rewrite count_app. split.
    + cbn [List.filter]. destruct (calls_seekTo c); cbn [length]; lia.
    + intros Hoff. rewrite Hnone, IHnone by congruence. reflexivity.
Qed.

(** A component that was never mounted emits nothing, whatever is called
    on it, and no call gives it a socket. *)
Theorem unmounted_session_never_emits (calls : list call) (r : Room) :
  socket r = None →
  count is_emit (session_trace (run calls r)) = 0 ∧
  updates (session_trace (run calls r)) = [] ∧
  socket (session_room (run calls r)) = None.
Proof.
  revert r. induction calls as [|c cs IH]; intros r Hsk.
  - by repeat split.
  - destruct (handle_step c r) as ((_ & _ & Hls) & _ & (_ & _ & Hnone) & _).
    assert (socket (room_after (handle c r)) = None) as Hsk'.
    { rewrite Hsk in Hls. by apply fmap_None in Hls. }
    destruct (IH _ Hsk') as (IHem & IHup & IHsk).
    pose proof (session_emits_are_updates (c :: cs) r) as Heq.
    rewrite run_cons in *. unfold session_trace, session_room in *. cbn [fst snd] in *.
    rewrite count_app, Hnone, IHem in * by done.
    split; [reflexivity|]. split; [|exact IHsk].
    symmetry in Heq. by apply nil_length_inv in Heq.
Qed.

End Sessions.

Section Composition.
Context `{host : Host}.

Lemma prop_merge_l (d s : object) (k : string) (v : value) :
  d !! k = Some v → prop (merge d s) k = v.
Proof. intros Hk. unfold prop, merge. by rewrite (lookup_union_Some_l _ _ _ _ Hk). Qed.

Lemma lookup_merge_r (d s : object) (k : string) :
  d !! k = None → merge d s !! k = s !! k.
Proof. intros Hk. unfold merge. by apply lookup_union_r. Qed.

Lemma prop_merge_r (d s : object) (k : string) :
  d !! k = None → prop (merge d s) k = prop s k.
Proof. intros Hk. unfold prop. by rewrite lookup_merge_r. Qed.

Lemma lookup_merge_singleton_ne (k k' : string) (v : value) (s : object) :
  k' ≠ k → merge {[ k := v ]} s !! k' = s !! k'.
Proof. intros Hne. apply lookup_merge_r. by apply lookup_singleton_ne. Qed.

Lemma handleSeekMouseUp_eq (v : string) (r : Room) :
  handleSeekMouseUp v r =
    (Normal (), with_state (merge {[ "seeking" := VBool false ]} (state r)) r,
     (if socket r is Some _
      then [ConsoleDebug "Updating to remote:" {[ "seeking" := VBool false ]};
            SocketEmit "update" {[ "seeking" := VBool false ]}]
      else []) ++
     if player_current r then [PlayerSeekTo (VNumber (parseFloat v)) None] else []).
Proof. by destruct r as [rid st [] [sk|]]. Qed.

(** ** After leaving *)

(** [componentWillUnmount] disconnects and keeps [this.socket]: a call of
    [updateState] after it completes without an error and still emits
    the delta, on the disconnected socket. *)
Theorem updateState_after_unmount_still_emits (data : object) (r : Room) (sk : Socket) :
  socket r = Some sk →
  outcome ((componentWillUnmount;; updateState data) r) = Normal () ∧
  socket (room_after ((componentWillUnmount;; updateState data) r))
    = Some {| connected := false; listeners := listeners sk |} ∧
  updates (trace ((componentWillUnmount;; updateState data) r)) = [data].
Proof.
  destruct r as [rid st pc sk0]. cbn [socket]. intros ->.
  destruct sk as [[] ls]; repeat split.
Qed.

(** [componentWillUnmount] raises exactly on a component that has no
    socket, and then nothing was done; on a component with a socket it
    never does. *)
Theorem componentWillUnmount_raises_iff (r : Room) :
  (raises (componentWillUnmount r) ↔ socket r = None) ∧
  (socket r = None →
   ∃ e, componentWillUnmount r = (Throw e, r, [])).
Proof.
  destruct r as [rid st pc [[[] ls]|]]; cbn [socket]; split.
  - split; [intros [e [=]] | done].
  - done.
  - split; [intros [e [=]] | done].
  - done.
  - split; [done | intros _; by eexists].
  - intros _. by eexists.
Qed.

(** ** Progress while a scrub control is held *)

(** Once [handleSeekMouseDown] has run, a progress report of the player is
    dropped: the state stays as the mouse down left it and nothing more
    is published.  After [handleSeekMouseUp] progress is merged again. *)
Theorem progress_dropped_during_gesture (progress : object) (r : Room) :
  (handleSeekMouseDown;; onProgress progress) r = handleSeekMouseDown r ∧
  ∀ v, state (room_after ((handleSeekMouseUp v;; onProgress progress) r))
       = merge progress (merge {[ "seeking" := VBool false ]} (state r)).
Proof.
  split.
  - erewrite bind_normal by (unfold handleSeekMouseDown; apply updateState_eq).
    unfold handleSeekMouseDown. rewrite updateState_eq.
    unfold onProgress. rewrite this_bind. cbn [state with_state].
    rewrite (prop_merge_l _ _ _ (VBool true)) by apply lookup_singleton_eq.
    cbn. by rewrite app_nil_r.
  - intros v. erewrite bind_normal by apply handleSeekMouseUp_eq.
    unfold onProgress. rewrite this_bind. cbn [state with_state].
    rewrite (prop_merge_l _ _ _ (VBool false)) by apply lookup_singleton_eq.
    cbn [ToBoolean negb]. by rewrite updateState_eq.
Qed.

(** The flag is shared: an inbound delta with a truthy [seeking], sent by
    another participant who holds the control, makes this component drop
    its own progress reports as well. *)
Theorem progress_dropped_on_remote_seeking (data progress : object) (r : Room) :
  ToBoolean (prop data "seeking") = true →
  (on_status data;; onProgress progress) r = on_status data r.
Proof.
  intros Hseek.
  erewrite bind_normal by apply on_status_eq.
  rewrite on_status_eq. unfold onProgress. rewrite this_bind.
  cbn [state with_state].
  assert (prop (merge data (state r)) "seeking" = prop data "seeking") as ->.
  { unfold prop in *. destruct (data !! "seeking") as [v|] eqn:Hv; [|done].
    unfold merge. by rewrite (lookup_union_Some_l _ _ _ _ Hv). }
  rewrite Hseek. cbn. by rewrite app_nil_r.
Qed.

(** ** The three buttons *)

Lemma toggles_intro (k : string) (m : M unit) :
  (∀ r, m r = updateState {[ k := VBool (negb (ToBoolean (prop (state r) k))) ]} r) →
  toggles k m.
Proof.
  intros Hm r b.
  assert (∀ r0 c, prop (state (room_after (updateState {[ k := VBool c ]} r0))) k
                  = VBool c) as Hset.
  { intros r0 c. rewrite updateState_eq. cbn.
    apply prop_merge_l, lookup_singleton_eq. }
  split; [by rewrite Hm, Hset|]. split.
  - intros k' Hne. rewrite Hm, updateState_eq. cbn.
    by apply lookup_merge_singleton_ne.
  - erewrite bind_normal by (rewrite Hm; apply updateState_eq).
    rewrite !Hm, !updateState_eq. cbn [state with_state socket].
    rewrite (prop_merge_l _ _ _ (VBool (negb b))) by apply lookup_singleton_eq.
    cbn [ToBoolean]. rewrite negb_involutive. fold b. split.
    + unfold room_after. cbn. apply prop_merge_l, lookup_singleton_eq.
    + unfold trace. cbn. by destruct (socket r).
Qed.

(** The play, mute and loop buttons are toggles: a click negates the
    truthiness of its own property and leaves every other property
    (muting keeps the volume); a second click brings it back. *)
Theorem buttons_toggle :
  toggles "playing" onClick_playing ∧
  toggles "muted" onClick_muted ∧
  toggles "loop" onClick_loop.
Proof.
  split; [|split]; apply toggles_intro; intros r;
    unfold onClick_playing, onClick_muted, onClick_loop; by rewrite this_bind.
Qed.

End Composition.

Section Replicas.
Context `{host : Host}.

(** ** What a call leaves untouched *)

Lemma handle_frame (c : call) (r : Room) (k : string) :
  k ∉ writes c → state (room_after (handle c r)) !! k = state r !! k.
Proof.
  intros Hk. revert Hk. step_cases c r; intros Hk; cbn [room_after fst snd state];
    try reflexivity;
    apply lookup_merge_r, not_elem_of_dom;
    rewrite ?dom_insert_L, ?dom_singleton_L; set_solver.
Qed.

(** A property that no call of a session writes keeps its value through
    the whole session.  No callback or button of the component writes
    [volume], [playbackRate], [id], [owner] or [users]: only an inbound
    delta or a progress report that carries such a key can change it. *)
Theorem session_frame (calls : list call) (r : Room) (k : string) :
  Forall (λ c, k ∉ writes c) calls →
  state (session_room (run calls r)) !! k = state r !! k.
Proof.
  intros Hall. revert r. induction Hall as [|c cs Hc _ IH]; intros r.
  - reflexivity.
  - rewrite run_cons. unfold session_room in *. cbn [fst snd].
    rewrite IH. by apply handle_frame.
Qed.

(** ** Two participants *)

(** The sender's [updateState] and a receiver's listener apply the same
    merge: after both, the two components agree on every property of the
    delta, and components that agreed on the whole state still do. *)
Theorem published_delta_converges (data : object) (sender receiver : Room) :
  (∀ k v, data !! k = Some v →
     state (room_after (updateState data sender)) !! k = Some v ∧
     state (room_after (on_status data receiver)) !! k = Some v) ∧
  (state sender = state receiver →
     state (room_after (updateState data sender))
     = state (room_after (on_status data receiver))).
Proof.
  rewrite updateState_eq, on_status_eq. unfold room_after. cbn. split.
  - intros k v Hk. unfold merge. by rewrite !(lookup_union_Some_l _ _ _ _ Hk).
  - by intros ->.
Qed.

(** Inbound deltas that write different properties can arrive in either
    order: the resulting state is the same. *)
Theorem inbound_deltas_commute (d1 d2 : object) (r : Room) :
  dom d1 ## dom d2 →
  state (room_after ((on_status d1;; on_status d2) r))
  = state (room_after ((on_status d2;; on_status d1) r)).
Proof.
  intros Hdisj.
  erewrite !bind_normal by apply on_status_eq.
  rewrite !on_status_eq. unfold room_after. cbn. unfold merge.
  rewrite !(assoc_L (∪)). f_equal.
  apply map_union_comm. by apply map_disjoint_dom.
Qed.

(** When two inbound deltas write the same property, the later one wins. *)
Lemma later_inbound_delta_wins (d1 d2 : object) (r : Room) (k : string) (v : value) :
  d2 !! k = Some v →
  state (room_after ((on_status d1;; on_status d2) r)) !! k = Some v.
Proof.
  intros Hk. erewrite bind_normal by apply on_status_eq.
  rewrite on_status_eq. unfold room_after. cbn. unfold merge.
  by rewrite (lookup_union_Some_l _ _ _ _ Hk).
Qed.

(** ** The gate on an unknown duration and on an echo *)

(** While the local duration is not a positive number (unknown, 0 or not
    yet reported) no inbound delta moves the player, wherever it says the
    room is: the gate reads the duration the state held before the merge. *)
Theorem unknown_duration_never_seeks (data : object) (r : Room) :
  (0 <? ToNumber (prop (state r) "duration"))%float = false →
  count is_seek (trace (on_status data r)) = 0 ∧
  trace (on_status data r) = [ConsoleDebug "Update from server:" data].
Proof.
  intros Hdur.
  assert (reconciliation_gate (state r) data = false) as Hgate.
  { unfold reconciliation_gate.
    destruct (ToBoolean (prop data "played")); [|done].
    destruct (drift_exceeds _ _ _) eqn:Hd; [|done].
    apply drift_exceeds_duration_pos in Hd. congruence. }
  rewrite on_status_eq, Hgate. by split.
Qed.



(** ** The state a scrub gesture leaves *)

Lemma handleSeekChanges_result (values : list string) : ∀ r,
  ∃ t, handleSeekChanges values r =
         (Normal (),
          with_state (foldl (λ st v, merge (played_delta v) st) (state r) values) r,
          t).
Proof.
  induction values as [|v values IH]; intros r.
  - exists []. by destruct r.
  - cbn [handleSeekChanges foldl].
    erewrite bind_normal by (unfold handleSeekChange; apply updateState_eq).
    destruct (IH (with_state (merge (played_delta v) (state r)) r)) as [t Ht].
    unfold played_delta in Ht. rewrite Ht. by eexists.
Qed.

Lemma foldl_played (values : list string) : ∀ st : object,
  prop (foldl (λ st v, merge (played_delta v) st) st values) "played"
  = match last values with
    | Some v => VNumber (parseFloat v)
    | None => prop st "played"
    end ∧
  ∀ k, k ≠ "played" →
       foldl (λ st v, merge (played_delta v) st) st values !! k = st !! k.
Proof.
  induction values as [|v values IH]; intros st; [done|].
  cbn [foldl]. destruct (IH (merge (played_delta v) st)) as [Hp Hk]. split.
  - rewrite Hp, last_cons. destruct (last values); [reflexivity|].
    apply prop_merge_l, lookup_singleton_eq.
  - intros k Hne. rewrite Hk by done. by apply lookup_merge_singleton_ne.
Qed.

(** After a scrub gesture [seeking] is false, [played] holds the last
    slider change (the value passed to the mouse up is only sought, not
    stored; without a change [played] is as before) and every other
    property is as it was. *)
Theorem seek_gesture_final_state (values : list string) (final : string) (r : Room) :
  outcome (seek_gesture values final r) = Normal () ∧
  prop (state (room_after (seek_gesture values final r))) "seeking" = VBool false ∧
  prop (state (room_after (seek_gesture values final r))) "played"
    = match last values with
      | Some v => VNumber (parseFloat v)
      | None => prop (state r) "played"
      end ∧
  ∀ k, k ≠ "seeking" → k ≠ "played" →
       state (room_after (seek_gesture values final r)) !! k = state r !! k.
Proof.
  unfold seek_gesture.
  erewrite bind_normal by (unfold handleSeekMouseDown; apply updateState_eq).
  destruct (handleSeekChanges_result values
              (with_state (merge {[ "seeking" := VBool true ]} (state r)) r))
    as [t1 Hchanges].
  erewrite (bind_normal (handleSeekChanges values)) by exact Hchanges.
  rewrite handleSeekMouseUp_eq. unfold outcome, room_after.
  cbn [fst snd state with_state].
  destruct (foldl_played values (merge {[ "seeking" := VBool true ]} (state r)))
    as [Hp Hk].
  split; [done|]. split; [apply prop_merge_l, lookup_singleton_eq|]. split.
  - rewrite prop_merge_r by done. rewrite Hp.
    destruct (last values); [done|].
    apply prop_merge_r. done.
  - intros k Hs Hpl.
    rewrite lookup_merge_singleton_ne, Hk by done.
    by apply lookup_merge_singleton_ne.
Qed.

End Replicas.

(** * The further properties on the sample sessions *)

Lemma unmounted_session_never_emits_witness :
  socket (constructor "r1") = None ∧
  updates (session_trace (@run sample_host sample_calls (constructor "r1"))) = [] ∧
  socket (session_room (@run sample_host sample_calls (constructor "r1"))) = None.
Proof.
  assert (socket (constructor "r1") = None) as Hsk by reflexivity.
  destruct (@unmounted_session_never_emits sample_host sample_calls (constructor "r1") Hsk)
    as (_ & Hup & Hnone).
  split; [exact Hsk|]. split; [exact Hup | exact Hnone].
Defined.

Lemma updateState_after_unmount_still_emits_witness :
  socket r1_connected = Some {| connected := true; listeners := ["status"] |} ∧
  updates (trace ((componentWillUnmount;; updateState delta_volume) r1_connected))
    = [delta_volume] ∧
  socket (room_after ((componentWillUnmount;; updateState delta_volume) r1_connected))
    = Some {| connected := false; listeners := ["status"] |}.
Proof.
  assert (socket r1_connected = Some {| connected := true; listeners := ["status"] |})
    as Hsk by by_evaluation.
  destruct (updateState_after_unmount_still_emits delta_volume r1_connected _ Hsk)
    as (_ & Hsocket & Hup).
  split; [exact Hsk|]. split; [exact Hup | exact Hsocket].
Defined.

Lemma progress_dropped_on_remote_seeking_witness :
  ToBoolean (prop delta_remote_seeking "seeking") = true ∧
  (@on_status sample_host delta_remote_seeking;; onProgress delta_progress_volume)
    r1_connected
  = @on_status sample_host delta_remote_seeking r1_connected.
Proof.
  assert (ToBoolean (prop delta_remote_seeking "seeking") = true) as Hseek
    by by_evaluation.
  split; [exact Hseek|].
  exact (@progress_dropped_on_remote_seeking sample_host
           delta_remote_seeking delta_progress_volume r1_connected Hseek).
Defined.

Lemma session_frame_witness :
  Forall (λ c, "volume" ∉ writes c) sample_calls ∧
  state (session_room (@run sample_host sample_calls r1_connected)) !! "volume"
  = Some (VNumber 0.3).
Proof.
  assert (Forall (λ c, "volume" ∉ writes c) sample_calls) as Hall.
  { unfold sample_calls.
    repeat (constructor; [cbn [writes]; by_decision|]).
    constructor. }
  split; [exact Hall|].
  rewrite (@session_frame sample_host sample_calls r1_connected "volume" Hall).
  by_evaluation.
Defined.

Lemma inbound_deltas_commute_witness :
  dom delta_volume ## dom delta_remote_seeking ∧
  state (room_after ((@on_status sample_host delta_volume;;
                      @on_status sample_host delta_remote_seeking) r1_connected))
  = state (room_after ((@on_status sample_host delta_remote_seeking;;
                        @on_status sample_host delta_volume) r1_connected)).
Proof.
  assert (dom delta_volume ## dom delta_remote_seeking) as Hdisj.
  { unfold delta_volume, delta_remote_seeking. rewrite !dom_singleton_L. set_solver. }
  split; [exact Hdisj|].
  exact (@inbound_deltas_commute sample_host delta_volume delta_remote_seeking
           r1_connected Hdisj).
Defined.

(** A component that has just joined does not know the duration: the
    first inbound snapshot does not move its player. *)
Lemma unknown_duration_never_seeks_witness :
  (0 <? @ToNumber sample_host (prop (state r1_connected) "duration"))%float = false ∧
  count is_seek (trace (@on_status sample_host (delta_played 0.9) r1_connected)) = 0.
Proof.
  assert ((0 <? @ToNumber sample_host (prop (state r1_connected) "duration"))%float
          = false) as Hdur by by_evaluation.
  split; [exact Hdur|].
  exact (proj1 (@unknown_duration_never_seeks sample_host
                  (delta_played 0.9) r1_connected Hdur)).
Defined.

